(** * makegrind: the callgrind exporter and the command-line callbacks

    A shallow embedding of [makegrind/output.py] ([dump_callgrind]) and of
    the option callbacks of [makegrind/__main__.py] ([target_specifier],
    [find_json_files] and the module's import block), with the properties
    of the exported profile proved over it. *)

From Stdlib Require Import ZArith String Ascii List Bool Lia DecimalString.
Import ListNotations.
Open Scope string_scope.
Open Scope list_scope.
Open Scope Z_scope.

(** ** The fragment of the Python runtime the two modules rely on *)

Module Py.

(** Exceptions the modelled code can raise. *)
Inductive exn : Type :=
| TypeError (msg : string)
| NameError (name : string)
| ZeroDivisionError
| IndexError (msg : string)
| SyntaxError (text : string)
| BadParameter (msg : string).

Inductive Res (A : Type) : Type :=
| Ok (a : A)
| Raise (e : exn).
Arguments Ok {A} a.
Arguments Raise {A} e.

(** A computation over a mutable state [S]: it returns a value or raises,
    and the state it reached is kept either way (what was written to a
    file before an exception stays written). *)
Definition M (S A : Type) : Type := S -> Res A * S.

Definition ret {S A} (a : A) : M S A := fun s => (Ok a, s).

Definition raise {S A} (e : exn) : M S A := fun s => (Raise e, s).

Definition bind {S A B} (m : M S A) (k : A -> M S B) : M S B :=
  fun s =>
    match m s with
    | (Ok a, s') => k a s'
    | (Raise e, s') => (Raise e, s')
    end.

Definition lift {S A} (r : Res A) : M S A := fun s => (r, s).

Notation "x <- m ;; k" := (bind m (fun x => k))
  (at level 61, m at next level, right associativity).
Notation "m ;; k" := (bind m (fun _ => k))
  (at level 61, right associativity).

(** [for x in xs: body(x)], left to right, stopping at the first
    exception. *)
Fixpoint for_each {S A} (xs : list A) (body : A -> M S unit) : M S unit :=
  match xs with
  | [] => ret tt
  | x :: xs' => body x ;; for_each xs' body
  end.

(** The newline character of the format strings. *)
Definition nl : string := String (ascii_of_nat 10) EmptyString.

(** [str(n)] for an [int]. *)
Definition str_int (z : Z) : string := NilZero.string_of_int (Z.to_int z).

(** [str(x)] / ["{}".format(x)] for a value that is an [int] or [None]. *)
Definition str_opt_int (o : option Z) : string :=
  match o with
  | Some z => str_int z
  | None => "None"
  end.

(** [sep.join(parts)]. *)
Definition join (sep : string) (parts : list string) : string :=
  String.concat sep parts.

(** *** [datetime.timedelta] *)

(** A duration is held as days, seconds and microseconds. *)
Record timedelta : Type := mk_timedelta {
  days : Z;
  seconds : Z;
  microseconds : Z
}.

(** [datetime.timedelta(microseconds=n)]: the constructor normalises the
    three fields.  It is used for counts within the 999999999 days a
    duration may span (beyond them the constructor raises
    [OverflowError]); the export calls it at [n = 1] only. *)
Definition timedelta_us (n : Z) : timedelta :=
  {| days := n / 86400000000;
     seconds := (n / 1000000) mod 86400;
     microseconds := n mod 1000000 |}.

Definition to_microseconds (d : timedelta) : Z :=
  (days d * 86400 + seconds d) * 1000000 + microseconds d.

(** *** [float]

    A finite binary64 value [mant * 2^expo].  Durations are limited to
    999999999 days, below [2^67] microseconds, so no quotient of two
    durations leaves the normal range of binary64: the exponent bounds
    play no role and only the 53-bit precision is modelled. *)
Record float : Type := mk_float {
  mant : Z;
  expo : Z
}.

(** The integer nearest to [n / d] for [0 < d], ties to the even one. *)
Definition round_half_even (n d : Z) : Z :=
  let q := n / d in
  let r := n mod d in
  match 2 * r ?= d with
  | Lt => q
  | Gt => q + 1
  | Eq => if Z.even q then q else q + 1
  end.

(** [n / d] for positive [n] and [d], correctly rounded to 53 significant
    bits (the result of [int.__truediv__]). *)
Definition round_to_double (n d : Z) : float :=
  let k := Z.log2 n - Z.log2 d in
  let ge := if 0 <=? k then d * 2 ^ k <=? n else d <=? n * 2 ^ (- k) in
  let e := (if ge then k else k - 1) - 52 in
  let m := if 0 <=? e then round_half_even n (d * 2 ^ e)
           else round_half_even (n * 2 ^ (- e)) d in
  {| mant := m; expo := e |}.

(** [a / b] for two [int]s: the sign is applied to the rounded magnitude
    of the quotient. *)
Definition float_quotient (a b : Z) : float :=
  if a =? 0 then {| mant := 0; expo := 0 |}
  else
    let x := round_to_double (Z.abs a) (Z.abs b) in
    {| mant := Z.sgn a * Z.sgn b * mant x; expo := expo x |}.

Definition int_truediv (a b : Z) : Res float :=
  if b =? 0 then Raise ZeroDivisionError
  else Ok (float_quotient a b).

(** [x / y] for two durations: the quotient of their microsecond counts
    as a float. *)
Definition timedelta_truediv (x y : timedelta) : Res float :=
  int_truediv (to_microseconds x) (to_microseconds y).

(** [round(x)] for a float: the nearest integer, ties to even. *)
Definition round (x : float) : Z :=
  if 0 <=? expo x then mant x * 2 ^ expo x
  else round_half_even (mant x) (2 ^ (- expo x)).

End Py.

Import Py.

(** ** The merged graph, as [dump_callgrind] reads it *)

Module Graph.

(** The identity of a target: (directory, file, name). *)
Definition Key : Type := (string * option string * string)%type.

(** Target records are Python objects: the graph's mapping and the
    successor dictionaries hold references to them. *)
Definition ref : Type := nat.

(** Modelled from the spec: the target record of the graph module, which
    is not part of the sources at hand.  The attributes are those
    [dump_callgrind] reads: [directory], [file] (absent for targets with no
    defining source file), [target] (the name), [line] (optional),
    [elapsed], [recipe] (the recipe_executed flag), [elapsed_recipe]
    (defined whenever [recipe] holds, and read only then) and [successors],
    an insertion-ordered dictionary from identity to target record.  The
    two durations are [datetime.timedelta] values, the only operand type
    the division by [datetime.timedelta(microseconds=1)] accepts. *)
Record TargetData : Type := mk_target {
  directory : string;
  file : option string;
  target : string;
  line : option Z;
  elapsed : timedelta;
  recipe : bool;
  elapsed_recipe : timedelta;
  successors : list (Key * ref)
}.

(** Modelled from the spec: the Entry of the graph (creator string and
    argument vector of the top-level invocation). *)
Record Entry : Type := mk_entry {
  creator : string;
  argv : list string
}.

(** Modelled from the spec: the graph object, [graph.entry] and the
    insertion-ordered dictionary [graph.targets.info]. *)
Record BuildDiGraph : Type := mk_graph {
  entry : Entry;
  targets_info : list (Key * ref)
}.

(** What a run of the exporter can see and change: the graph object, the
    target objects behind the references, and the strings written to the
    output stream so far (one per [fd.write] call, oldest first). *)
Record World : Type := mk_world {
  graph : BuildDiGraph;
  objs : ref -> TargetData;
  fd : list string
}.

(** [fd.write(s)]. *)
Definition fd_write (s : string) : M World unit :=
  fun w => (Ok tt, {| graph := graph w; objs := objs w; fd := fd w ++ [s] |}).

(** Reading the graph object and dereferencing a target object. *)
Definition get_graph : M World BuildDiGraph := fun w => (Ok (graph w), w).

Definition get_obj (r : ref) : M World TargetData := fun w => (Ok (objs w r), w).

End Graph.

Import Graph.

(** ** [makegrind/output.py] *)

Module Output.

(** Lines 48-60: the body of the loop over [data.successors.values()]. *)
Definition dump_callgrind_dep (data : TargetData) (item : Key * ref)
  : M World unit :=
  dep <- get_obj (snd item) ;;
  match file dep with
  | None => ret tt                                       (* continue *)
  | Some dep_file =>
      fd_write ("cob=" ++ directory dep ++ nl) ;;
      fd_write ("cfi=" ++ dep_file ++ nl) ;;
      fd_write ("cfn=" ++ target dep ++ nl) ;;
      fd_write ("calls=1 " ++ str_opt_int (line dep) ++ nl) ;;
      us <- lift (timedelta_truediv (elapsed dep) (timedelta_us 1)) ;;
      fd_write (str_opt_int (line data) ++ " " ++ str_int (round us) ++ nl)
  end.

(** Lines 30-60: the body of the loop over [graph.targets.info.items()]. *)
Definition dump_callgrind_target (item : Key * ref) : M World unit :=
  data <- get_obj (snd item) ;;
  match file data with
  | None => ret tt                                       (* continue *)
  | Some data_file =>
      fd_write (nl ++ "ob=" ++ directory data ++ nl) ;;
      fd_write ("fl=" ++ data_file ++ nl) ;;
      fd_write ("fn=" ++ target data ++ nl) ;;
      us <- lift (timedelta_truediv (elapsed data) (timedelta_us 1)) ;;
      let cost := [str_opt_int (line data); str_int (round us)] in
      cost <- (if recipe data then
                 let recipe := elapsed_recipe data in
                 rus <- lift (timedelta_truediv (elapsed_recipe data)
                                                (timedelta_us 1)) ;;
                 ret (cost ++ [str_int (round rus)])
               else ret cost) ;;
      fd_write (join " " cost ++ nl) ;;
      for_each (successors data) (dump_callgrind_dep data)
  end.

(** Lines 20-60. *)
Definition dump_callgrind : M World unit :=
  fd_write ("# callgrind format" ++ nl) ;;
  fd_write ("version: 1" ++ nl) ;;
  g <- get_graph ;;
  fd_write ("creator: " ++ creator (entry g) ++ nl) ;;
  fd_write ("cmd: " ++ join " " (argv (entry g)) ++ nl) ;;
  fd_write ("desc: Node: Targets" ++ nl) ;;
  fd_write ("positions: line" ++ nl) ;;
  fd_write ("event: Wt : Wall Time" ++ nl) ;;
  fd_write ("event: Rt : Recipe Time" ++ nl) ;;
  fd_write ("events: Wt Rt" ++ nl ++ nl) ;;
  for_each (targets_info g) dump_callgrind_target.

End Output.

(** ** The exported profile as data

    The text [dump_callgrind] writes, described as a list of function
    records with their call records, and printed by [render_fn].  It is
    what the output is compared with. *)

Module Profile.

(** A call record: [cob=], [cfi=], [cfn=], [calls=1 <callee line>] and
    the cost line [<caller line> <cost>]. *)
Record Call : Type := mk_call {
  cob : string;
  cfi : string;
  cfn : string;
  callee_line : option Z;
  caller_line : option Z;
  call_cost : Z
}.

(** A function record: [ob=], [fl=], [fn=], the cost line
    [<line> <cost> ...] and the calls made from it. *)
Record Fn : Type := mk_fn {
  ob : string;
  fl : string;
  fn : string;
  fn_line : option Z;
  costs : list Z;
  calls : list Call
}.

Definition render_call (c : Call) : list string :=
  [ "cob=" ++ cob c ++ nl;
    "cfi=" ++ cfi c ++ nl;
    "cfn=" ++ cfn c ++ nl;
    "calls=1 " ++ str_opt_int (callee_line c) ++ nl;
    str_opt_int (caller_line c) ++ " " ++ str_int (call_cost c) ++ nl ]%string.

Definition render_fn (f : Fn) : list string :=
  [ nl ++ "ob=" ++ ob f ++ nl;
    "fl=" ++ fl f ++ nl;
    "fn=" ++ fn f ++ nl;
    join " " (str_opt_int (fn_line f) :: map str_int (costs f)) ++ nl ]%string
  ++ flat_map render_call (calls f).

Definition render (p : list Fn) : list string := flat_map render_fn p.

(** The nine writes that precede the target records. *)
Definition header (e : Entry) : list string :=
  [ "# callgrind format" ++ nl;
    "version: 1" ++ nl;
    "creator: " ++ creator e ++ nl;
    "cmd: " ++ join " " (argv e) ++ nl;
    "desc: Node: Targets" ++ nl;
    "positions: line" ++ nl;
    "event: Wt : Wall Time" ++ nl;
    "event: Rt : Recipe Time" ++ nl;
    "events: Wt Rt" ++ nl ++ nl ]%string.

(** A duration as the exporter prints it:
    [round(d / datetime.timedelta(microseconds=1))]. *)
Definition usec (d : timedelta) : Z :=
  match timedelta_truediv d (timedelta_us 1) with
  | Ok x => round x
  | Raise _ => 0
  end.

Definition call_of (data dep : TargetData) : list Call :=
  match file dep with
  | None => []
  | Some f =>
      [ {| cob := directory dep; cfi := f; cfn := target dep;
           callee_line := line dep; caller_line := line data;
           call_cost := usec (elapsed dep) |} ]
  end.

Definition fn_of (objs : ref -> TargetData) (data : TargetData) : list Fn :=
  match file data with
  | None => []
  | Some f =>
      [ {| ob := directory data; fl := f; fn := target data;
           fn_line := line data;
           costs := usec (elapsed data)
                    :: (if recipe data then [usec (elapsed_recipe data)]
                        else []);
           calls := flat_map (fun item => call_of data (objs (snd item)))
                             (successors data) |} ]
  end.

Definition profile_of (objs : ref -> TargetData) (items : list (Key * ref))
  : list Fn :=
  flat_map (fun item => fn_of objs (objs (snd item))) items.

(** Appending to what the stream already holds. *)
Definition written (l : list string) (w : World) : World :=
  {| graph := graph w; objs := objs w; fd := fd w ++ l |}.

(** The graph with one target object forgotten: dropped from the mapping
    and from every successor dictionary. *)
Definition keeps (r : ref) (item : Key * ref) : bool :=
  negb (Nat.eqb (snd item) r).

Definition forget_obj (r : ref) (data : TargetData) : TargetData :=
  {| directory := directory data; file := file data; target := target data;
     line := line data; elapsed := elapsed data; recipe := recipe data;
     elapsed_recipe := elapsed_recipe data;
     successors := filter (keeps r) (successors data) |}.

Definition forget (r : ref) (w : World) : World :=
  {| graph := {| entry := entry (graph w);
                 targets_info := filter (keeps r) (targets_info (graph w)) |};
     objs := fun x => forget_obj r (objs w x);
     fd := fd w |}.

(** Every successor reference of a target of the mapping is itself a
    reference of the mapping. *)
Definition closed (w : World) : bool :=
  let items := targets_info (graph w) in
  forallb (fun item =>
             forallb (fun dep =>
                        existsb (fun item' =>
                                   Nat.eqb (@snd Key ref item')
                                           (@snd Key ref dep))
                                items)
                     (successors (objs w (snd item))))
          items.

(** No target of the mapping has a negative duration. *)
Definition nonneg_durations (w : World) : bool :=
  forallb (fun item =>
             let data := objs w (snd item) in
             (0 <=? to_microseconds (elapsed data)) &&
             (negb (recipe data)
              || (0 <=? to_microseconds (elapsed_recipe data))))
          (targets_info (graph w)).

(** No call of the profile names a function the profile has no record
    of. *)
Definition no_dangling (p : list Fn) : Prop :=
  forall f c,
    In f p -> In c (calls f) ->
    exists g, In g p /\ ob g = cob c /\ fl g = cfi c /\ fn g = cfn c.

(** Every cost of the profile is a non-negative integer. *)
Definition costs_nonneg (p : list Fn) : Prop :=
  forall f,
    In f p ->
    (forall v, In v (costs f) -> 0 <= v) /\
    (forall c, In c (calls f) -> 0 <= call_cost c).

End Profile.

(** ** [makegrind/__main__.py] *)

Module Main.

(** *** The import block (lines 14-24) *)

(** The lines as they stand in the file. *)
Definition import_block : list string :=
  [ "import datetime";
    "import os";
    "import sys";
    "import from pathlib import Path";
    "import multiprocessing as mp";
    "import logging";
    "import yaml";
    "import click";
    "import makegrind" ].

Inductive token : Type :=
| NAME (s : string)
| KEYWORD (s : string)
| OP (c : ascii).

(** The reserved words of Python 3: none of them is an identifier. *)
Definition keywords : list string :=
  [ "False"; "None"; "True"; "and"; "as"; "assert"; "async"; "await";
    "break"; "class"; "continue"; "def"; "del"; "elif"; "else"; "except";
    "finally"; "for"; "from"; "global"; "if"; "import"; "in"; "is";
    "lambda"; "nonlocal"; "not"; "or"; "pass"; "raise"; "return"; "try";
    "while"; "with"; "yield" ].

Definition is_keyword (s : string) : bool := existsb (String.eqb s) keywords.

Definition is_space (c : ascii) : bool := Ascii.eqb c " "%char.

Definition is_op (c : ascii) : bool :=
  existsb (Ascii.eqb c) [","; "."; "("; ")"; "*"]%char.

Definition word (acc : string) : list token :=
  match acc with
  | EmptyString => []
  | _ => [if is_keyword acc then KEYWORD acc else NAME acc]
  end.

(** Splits a logical line into words and operators; [acc] is the word
    being read. *)
Fixpoint tokenize_from (acc : string) (s : string) : list token :=
  match s with
  | EmptyString => word acc
  | String c rest =>
      if is_space c then word acc ++ tokenize_from "" rest
      else if is_op c then word acc ++ OP c :: tokenize_from "" rest
      else tokenize_from (acc ++ String c "") rest
  end.

Definition tokenize (s : string) : list token := tokenize_from "" s.

(** [dotted_name: NAME ('.' NAME)*]; returns what follows it. *)
Fixpoint dotted_name (fuel : nat) (ts : list token) : option (list token) :=
  match fuel, ts with
  | S fuel', NAME _ :: OP "."%char :: rest => dotted_name fuel' rest
  | S _, NAME _ :: rest => Some rest
  | _, _ => None
  end.

(** [['as' NAME]]. *)
Definition opt_as (ts : list token) : option (list token) :=
  match ts with
  | KEYWORD "as" :: NAME _ :: rest => Some rest
  | KEYWORD "as" :: _ => None
  | _ => Some ts
  end.

(** [dotted_as_names: dotted_as_name (',' dotted_as_name)*], to the end of
    the line. *)
Fixpoint dotted_as_names (fuel : nat) (ts : list token) : bool :=
  match fuel with
  | O => false
  | S fuel' =>
      match dotted_name (length ts) ts with
      | None => false
      | Some rest =>
          match opt_as rest with
          | Some [] => true
          | Some (OP ","%char :: rest') => dotted_as_names fuel' rest'
          | _ => false
          end
      end
  end.

(** [import_as_names: NAME ['as' NAME] (',' NAME ['as' NAME])*], up to
    [closing]. *)
Fixpoint import_as_names (fuel : nat) (closing : list token)
  (ts : list token) : bool :=
  match fuel, ts with
  | S fuel', NAME _ :: rest =>
      match opt_as rest with
      | Some (OP ","%char :: rest') =>
          match rest', closing with
          | [OP ")"%char], [OP ")"%char] => true        (* trailing comma *)
          | _, _ => import_as_names fuel' closing rest'
          end
      | Some rest' =>
          match rest', closing with
          | [], [] => true
          | [OP ")"%char], [OP ")"%char] => true
          | _, _ => false
          end
      | None => false
      end
  | _, _ => false
  end.

Fixpoint skip_dots (ts : list token) : list token :=
  match ts with
  | OP "."%char :: rest => skip_dots rest
  | _ => ts
  end.

(** What may follow ['from' relative_module 'import']. *)
Definition import_targets (ts : list token) : bool :=
  match ts with
  | [OP "*"%char] => true
  | OP "("%char :: rest => import_as_names (length rest) [OP ")"%char] rest
  | _ => import_as_names (length ts) [] ts
  end.

(** [import_stmt: import_name | import_from]. *)
Definition import_stmt (ts : list token) : bool :=
  match ts with
  | KEYWORD "import" :: rest => dotted_as_names (length rest) rest
  | KEYWORD "from" :: rest =>
      let after_dots := skip_dots rest in
      match after_dots with
      | KEYWORD "import" :: names =>
          match rest with
          | OP "."%char :: _ => import_targets names
          | _ => false
          end
      | _ =>
          match dotted_name (length after_dots) after_dots with
          | Some (KEYWORD "import" :: names) => import_targets names
          | _ => false
          end
      end
  | _ => false
  end.

(** Compiling the module: the first line of the import block that is not
    an import statement is a syntax error, and nothing of the module
    runs. *)
Fixpoint compile_lines (lines : list string) : Res unit :=
  match lines with
  | [] => Ok tt
  | l :: rest =>
      if import_stmt (tokenize l) then compile_lines rest
      else Raise (SyntaxError l)
  end.

Definition load_module : Res unit := compile_lines import_block.

(** The commands of the click group [main]. *)
Inductive command : Type := Summary | Callgrind | Paths | Dirs | Recipes.

(** [python -m makegrind <command>]: the command is dispatched once the
    module is loaded. *)
Definition invoke (c : command) : Res command :=
  match load_module with
  | Ok _ => Ok c
  | Raise e => Raise e
  end.

(** *** [target_specifier] (lines 44-58) *)

(** The values the callback handles. *)
#[local] Set Warnings "-register-all".
Inductive pyval : Type :=
| VNone
| VInt (z : Z)
| VStr (s : string)
| VList (l : list pyval)
| VObject (name : string).

(** The names bound at the top level of the module, by its imports and
    its definitions. *)
Definition module_names : list string :=
  [ "datetime"; "os"; "sys"; "Path"; "mp"; "logging"; "yaml"; "click";
    "makegrind"; "print_report"; "setup_logging"; "target_specifier";
    "find_json_files"; "main"; "summary"; "callgrind"; "paths"; "dirs";
    "recipes" ].

(** Reading a name that is not a local of the function: it is looked up
    among the module's globals (no builtin is called [arg]). *)
Definition load_global {S} (name : string) : M S pyval :=
  if existsb (String.eqb name) module_names then ret (VObject name)
  else raise (NameError name).

(** Truth value of an object. *)
Definition truthy (v : pyval) : bool :=
  match v with
  | VNone => false
  | VInt z => negb (z =? 0)
  | VStr s => negb (String.eqb s "")
  | VList l => match l with [] => false | _ => true end
  | VObject _ => true
  end.

(** [v[i]] for a non-negative constant [i]. *)
Definition getitem {S} (v : pyval) (i : nat) : M S pyval :=
  match v with
  | VList l =>
      match nth_error l i with
      | Some x => ret x
      | None => raise (IndexError "list index out of range")
      end
  | VStr s =>
      match String.get i s with
      | Some c => ret (VStr (String c ""))
      | None => raise (IndexError "string index out of range")
      end
  | _ => raise (TypeError "object is not subscriptable")
  end.

(** [len(v)]. *)
Definition len {S} (v : pyval) : M S Z :=
  match v with
  | VList l => ret (Z.of_nat (List.length l))
  | VStr s => ret (Z.of_nat (String.length s))
  | _ => raise (TypeError "object has no len()")
  end.

(** [s.split(sep)] for a one-character separator; [acc] is the field
    being read. *)
Fixpoint split_from (sep : ascii) (acc : string) (s : string) : list string :=
  match s with
  | EmptyString => [acc]
  | String c rest =>
      if Ascii.eqb c sep then acc :: split_from sep "" rest
      else split_from sep (acc ++ String c "") rest
  end.

Definition split (sep : ascii) (s : string) : list string :=
  split_from sep "" s.

(** One entry of the list the callback returns: the dictionary with the
    keys "target", "makefile" and "pid". *)
Record specifier : Type := mk_specifier {
  spec_target : pyval;
  spec_makefile : pyval;
  spec_pid : pyval
}.

Section TargetSpecifier.

(** [os.path.expanduser] and the builtin [int], applied to whatever the
    name [arg] holds. *)
Variable expanduser : pyval -> Res pyval.
Variable int_ : pyval -> Res pyval.

(** Lines 47-56, the body of the loop; the state is the list
    [targets]. *)
Definition target_specifier_body (target : string)
  : M (list specifier) unit :=
  let target := split ":"%char target in
  (* "target": arg[0] if arg and arg[0] else None *)
  arg <- load_global "arg" ;;
  c <- (if truthy arg then
          arg <- load_global "arg" ;; getitem arg 0
        else ret arg) ;;
  t <- (if truthy c then arg <- load_global "arg" ;; getitem arg 0
        else ret VNone) ;;
  (* "makefile": os.path.expanduser(arg[1]) if len(arg) > 1 and arg[1]
                 else None *)
  arg <- load_global "arg" ;;
  n <- len arg ;;
  c <- (if 1 <? n then
          arg <- load_global "arg" ;; x <- getitem arg 1 ;; ret (truthy x)
        else ret false) ;;
  m <- (if c : bool then
          arg <- load_global "arg" ;; x <- getitem arg 1 ;;
          lift (expanduser x)
        else ret VNone) ;;
  (* "pid": int(arg[2]) if len(arg) > 2 and arg[2] else None *)
  arg <- load_global "arg" ;;
  n <- len arg ;;
  c <- (if 2 <? n then
          arg <- load_global "arg" ;; x <- getitem arg 2 ;; ret (truthy x)
        else ret false) ;;
  p <- (if c : bool then
          arg <- load_global "arg" ;; x <- getitem arg 2 ;; lift (int_ x)
        else ret VNone) ;;
  (* targets.append({...}) *)
  fun targets =>
    (Ok tt, targets ++ [ {| spec_target := t; spec_makefile := m;
                            spec_pid := p |} ]).

(** Lines 44-58. *)
Definition target_specifier (value : list string) : Res (list specifier) :=
  match for_each value target_specifier_body [] with
  | (Ok _, targets) => Ok targets
  | (Raise e, _) => Raise e
  end.

End TargetSpecifier.

(** *** [find_json_files] (lines 61-81) *)

(** The file system as the callback queries it. *)
Record FileSystem : Type := mk_fs {
  getcwd : string;
  isfile : string -> bool;
  (** [[str(f) for f in Path(path).rglob("build.*.json")]] *)
  rglob_build_json : string -> list string
}.

(** [paths.append(x)] *)
Definition list_append (x : string) : M (list string) unit :=
  fun paths => (Ok tt, paths ++ [x]).

(** [paths.extend(iterable)]: appends the elements and returns [None];
    the argument here is a list of str or [None], and [None] is not
    iterable. *)
Definition list_extend (iterable : option (list string))
  : M (list string) (option (list string)) :=
  fun paths =>
    match iterable with
    | Some l => (Ok None, paths ++ l)
    | None => (Raise (TypeError "'NoneType' object is not iterable"), paths)
    end.

Section FindJsonFiles.

Variable fs : FileSystem.

(** Lines 68-73, the body of the loop; the state is the list [paths]. *)
Definition find_json_files_body (path : string) : M (list string) unit :=
  if isfile fs path then list_append path
  else
    inner <- list_extend (Some (rglob_build_json fs path)) ;;
    list_extend inner ;;
    ret tt.

(** Lines 61-81; the returned set is given as a duplicate-free list. *)
Definition find_json_files (value : list string) : Res (list string) :=
  let value := match value with [] => [getcwd fs] | _ => value end in
  match for_each value find_json_files_body [] with
  | (Raise e, _) => Raise e
  | (Ok _, paths) =>
      match paths with
      | [] => Raise (BadParameter ("unable to find build.json files in "
                                   ++ join ", " value))
      | _ => Ok (nodup string_dec paths)
      end
  end.

End FindJsonFiles.

(** *** [setup_logging] (lines 31-41) *)

(** A handler object, with its identity, and the root logger. *)
Record handler : Type := mk_handler {
  hid : nat;
  formatter : option string
}.

Record logger : Type := mk_logger {
  log_handlers : list handler;
  log_level : Z
}.

(** [logging.WARNING], [logging.INFO] and [logging.DEBUG]. *)
Definition WARNING : Z := 30.
Definition INFO : Z := 20.
Definition DEBUG : Z := 10.

(** [xs[i]]: a negative index counts from the end, an index outside the
    list raises [IndexError]. *)
Definition list_index {S A} (xs : list A) (i : Z) : M S A :=
  let n := Z.of_nat (List.length xs) in
  let j := if i <? 0 then i + n else i in
  if (0 <=? j) && (j <? n) then
    match nth_error xs (Z.to_nat j) with
    | Some x => ret x
    | None => raise (IndexError "list index out of range")
    end
  else raise (IndexError "list index out of range").

(** [log.handlers.clear()] *)
Definition handlers_clear : M logger unit :=
  fun lg => (Ok tt, {| log_handlers := []; log_level := log_level lg |}).

(** [log.addHandler(hdl)]: the handler is appended unless the logger
    already holds that very object. *)
Definition addHandler (hdl : handler) : M logger unit :=
  fun lg =>
    if existsb (fun h => Nat.eqb (hid h) (hid hdl)) (log_handlers lg)
    then (Ok tt, lg)
    else (Ok tt, {| log_handlers := log_handlers lg ++ [hdl];
                    log_level := log_level lg |}).

(** [log.setLevel(l)] *)
Definition setLevel (l : Z) : M logger unit :=
  fun lg => (Ok tt, {| log_handlers := log_handlers lg; log_level := l |}).

(** Lines 31-41; the state is the root logger, [new_id] the identity of
    the handler object that [logging.StreamHandler()] creates. *)
Definition setup_logging (new_id : nat) (verbose : Z) : M logger unit :=
  let level := [WARNING; INFO; DEBUG] in
  let fmt := "%(levelname)s: %(message)s" in
  let hdl := {| hid := new_id; formatter := None |} in
  let hdl := {| hid := hid hdl; formatter := Some fmt |} in  (* setFormatter *)
  handlers_clear ;;
  addHandler hdl ;;
  l <- list_index level (Z.min verbose (Z.of_nat (List.length level) - 1)) ;;
  setLevel l.

End Main.

(** ** Sample inputs *)

Module Examples.

Definition k_all : Key := ("/src", Some "Makefile", "all").
Definition k_main : Key := ("/src", Some "Makefile", "main.o").
Definition k_phony : Key := ("/src", None, "clean").

(** Three targets: [all] (object 0) depends on [main.o] (object 1) and
    on the phony [clean] (object 2), which has no defining file. *)
Definition sample_objs (r : ref) : TargetData :=
  match r with
  | O => {| directory := "/src"; file := Some "Makefile"; target := "all";
            line := Some 3; elapsed := timedelta_us 2500000;
            recipe := false; elapsed_recipe := timedelta_us 0;
            successors := [(k_main, 1%nat); (k_phony, 2%nat)] |}
  | S O => {| directory := "/src"; file := Some "Makefile";
              target := "main.o"; line := Some 10;
              elapsed := timedelta_us 1200000;
              recipe := true; elapsed_recipe := timedelta_us 1100000;
              successors := [] |}
  | _ => {| directory := "/src"; file := None; target := "clean";
            line := None; elapsed := timedelta_us 40;
            recipe := false; elapsed_recipe := timedelta_us 0;
            successors := [] |}
  end.

Definition sample_world : World :=
  {| graph := {| entry := {| creator := "remake 4.3";
                             argv := ["remake"; "--profile"; "all"] |};
                 targets_info := [(k_all, 0%nat); (k_main, 1%nat);
                                  (k_phony, 2%nat)] |};
     objs := sample_objs;
     fd := [] |}.


(** A working directory holding one trace file. *)
Definition sample_fs : Main.FileSystem :=
  {| Main.getcwd := "/w";
     Main.isfile := fun p => String.eqb p "/w/build.1.json";
     Main.rglob_build_json := fun p =>
       if String.eqb p "/w" then ["/w/build.1.json"] else [] |}.

End Examples.

(** ** Sizes of the export *)

Module Counts.

(** The entry refers to an object with a defined file. *)
Definition has_file (objs : ref -> TargetData) (item : Key * ref) : bool :=
  match file (objs (snd item)) with
  | Some _ => true
  | None => false
  end.

(** The targets of the mapping that get a record. *)
Definition exported (w : World) : list (Key * ref) :=
  filter (has_file (objs w)) (targets_info (graph w)).

(** The successors of one target that get a call record. *)
Definition exported_deps (w : World) (item : Key * ref) : list (Key * ref) :=
  filter (has_file (objs w)) (successors (objs w (snd item))).

Definition n_records (w : World) : nat := List.length (exported w).

Definition n_calls (w : World) : nat :=
  list_sum (map (fun item => List.length (exported_deps w item)) (exported w)).

(** The occurrences of a character in a string. *)
Fixpoint count_char (c : ascii) (s : string) : nat :=
  match s with
  | EmptyString => O
  | String x rest =>
      if Ascii.eqb x c then Datatypes.S (count_char c rest)
      else count_char c rest
  end.

(** The paths [find_json_files] searches: the working directory when
    none is given (lines 63-64). *)
Definition searched (fs : Main.FileSystem) (value : list string)
  : list string :=
  match value with [] => [Main.getcwd fs] | _ => value end.

End Counts.

Import Output Profile.

(** ** Facts about the runtime fragment *)

Module PyFacts.

Lemma append_assoc (a b c : string) :
  ((a ++ b) ++ c)%string = (a ++ b ++ c)%string.
Proof. induction a as [|x a IH]; simpl; [reflexivity|now rewrite IH]. Qed.

Lemma to_microseconds_us1 : to_microseconds (timedelta_us 1) = 1.
Proof. reflexivity. Qed.

Lemma timedelta_truediv_us1 (d : timedelta) :
  timedelta_truediv d (timedelta_us 1) =
  Ok (float_quotient (to_microseconds d) 1).
Proof.
  unfold timedelta_truediv. rewrite to_microseconds_us1. reflexivity.
Qed.

Lemma usec_eq (d : timedelta) :
  usec d = round (float_quotient (to_microseconds d) 1).
Proof. unfold usec. rewrite timedelta_truediv_us1. reflexivity. Qed.

(** *** Rounding *)

Lemma round_half_even_mul (a d : Z) :
  0 < d -> round_half_even (a * d) d = a.
Proof.
  intros Hd. unfold round_half_even.
  rewrite Z.div_mul by lia. rewrite Z_mod_mult.
  assert (C : (2 * 0 ?= d) = Lt) by (apply Z.compare_lt_iff; lia).
  now rewrite C.
Qed.

Lemma round_half_even_nonneg (n d : Z) :
  0 <= n -> 0 < d -> 0 <= round_half_even n d.
Proof.
  intros Hn Hd. unfold round_half_even.
  assert (0 <= n / d) by (apply Z.div_pos; lia).
  destruct (2 * (n mod d) ?= d); [destruct (Z.even (n / d))| |]; lia.
Qed.

(** The rounded quotient is within half a unit of the exact one. *)
Lemma round_half_even_near (n d : Z) :
  0 < d -> 2 * Z.abs (round_half_even n d * d - n) <= d.
Proof.
  intros Hd. unfold round_half_even.
  pose proof (Z.div_mod n d ltac:(lia)) as E.
  pose proof (Z.mod_pos_bound n d Hd) as B.
  set (q := n / d) in *. set (r := n mod d) in *. clearbody q r.
  assert (Eq0 : q * d - n = - r) by lia.
  assert (Eq1 : (q + 1) * d - n = d - r) by lia.
  destruct (Z.compare_spec (2 * r) d) as [C|C|C].
  - destruct (Z.even q); [rewrite Eq0|rewrite Eq1]; lia.
  - rewrite Eq0. lia.
  - rewrite Eq1. lia.
Qed.

(** Dividing a positive count by one: the exponent is set by the bit
    length alone. *)
Lemma round_to_double_1 (n : Z) :
  0 < n ->
  round_to_double n 1 =
  let e := Z.log2 n - 52 in
  {| mant := if 0 <=? e then round_half_even n (2 ^ e) else n * 2 ^ (- e);
     expo := e |}.
Proof.
  intros Hn. unfold round_to_double.
  change (Z.log2 1) with 0. rewrite Z.sub_0_r.
  pose proof (Z.log2_nonneg n) as Hk.
  pose proof (Z.log2_spec n Hn) as [Hlo _].
  replace (0 <=? Z.log2 n) with true by (symmetry; apply Z.leb_le; lia).
  replace (1 * 2 ^ Z.log2 n <=? n) with true
    by (symmetry; apply Z.leb_le; lia).
  cbv zeta. f_equal.
  destruct (0 <=? Z.log2 n - 52) eqn:He.
  - now rewrite Z.mul_1_l.
  - apply Z.leb_gt in He.
    replace (n * 2 ^ (- (Z.log2 n - 52))) with (n * 2 ^ (- (Z.log2 n - 52)) * 1)
      at 1 by lia.
    apply round_half_even_mul. lia.
Qed.

(** Counts of at most [2^53] in magnitude survive the conversion to a
    float and back. *)
Lemma round_float_quotient_exact (a : Z) :
  Z.abs a <= 2 ^ 53 -> round (float_quotient a 1) = a.
Proof.
  intros Ha. unfold float_quotient.
  destruct (a =? 0) eqn:Ez.
  - apply Z.eqb_eq in Ez. subst a. reflexivity.
  - apply Z.eqb_neq in Ez.
    assert (Hn : 0 < Z.abs a) by lia.
    change (Z.abs 1) with 1. change (Z.sgn 1) with 1.
    rewrite (round_to_double_1 _ Hn). cbv zeta. simpl mant. simpl expo.
    destruct (Z.eq_dec (Z.abs a) (2 ^ 53)) as [Eb|Nb].
    + rewrite Eb. change (Z.log2 (2 ^ 53) - 52) with 1.
      change (round_half_even (2 ^ 53) (2 ^ 1)) with (2 ^ 52).
      unfold round. simpl expo. simpl mant. change (0 <=? 1) with true.
      cbv iota. lia.
    + assert (Hl : Z.log2 (Z.abs a) < 53)
        by (apply Z.log2_lt_pow2; lia).
      pose proof (Z.log2_nonneg (Z.abs a)) as Hl0.
      unfold round. simpl expo. simpl mant.
      destruct (0 <=? Z.log2 (Z.abs a) - 52) eqn:He.
      * apply Z.leb_le in He.
        replace (Z.log2 (Z.abs a) - 52) with 0 by lia.
        rewrite Z.pow_0_r.
        replace (Z.abs a) with (Z.abs a * 1) at 1 by lia.
        rewrite round_half_even_mul by lia. lia.
      * apply Z.leb_gt in He.
        replace (Z.sgn a * 1 * (Z.abs a * 2 ^ (- (Z.log2 (Z.abs a) - 52))))
          with (a * 2 ^ (- (Z.log2 (Z.abs a) - 52))) by nia.
        apply round_half_even_mul. apply Z.pow_pos_nonneg; lia.
Qed.

(** In general the printed count is the one of the nearest float: it is
    off by at most half a unit in the last of the 53 places. *)
Lemma round_float_quotient_near (a : Z) :
  2 * Z.abs (round (float_quotient a 1) - a) <= 2 ^ (Z.log2 (Z.abs a) - 52).
Proof.
  destruct (Z.le_gt_cases (Z.abs a) (2 ^ 53)) as [Hs|Hb].
  - rewrite round_float_quotient_exact by exact Hs.
    rewrite Z.sub_diag. simpl Z.abs. apply Z.pow_nonneg. lia.
  - assert (Hn : 0 < Z.abs a) by lia.
    assert (Hl : 53 <= Z.log2 (Z.abs a))
      by (apply Z.log2_le_pow2; lia).
    unfold float_quotient.
    replace (a =? 0) with false by (symmetry; apply Z.eqb_neq; lia).
    change (Z.abs 1) with 1. change (Z.sgn 1) with 1.
    rewrite (round_to_double_1 _ Hn). cbv zeta. simpl mant. simpl expo.
    unfold round. simpl expo. simpl mant.
    replace (0 <=? Z.log2 (Z.abs a) - 52) with true
      by (symmetry; apply Z.leb_le; lia).
    set (e := Z.log2 (Z.abs a) - 52).
    pose proof (round_half_even_near (Z.abs a) (2 ^ e)
                  ltac:(apply Z.pow_pos_nonneg; lia)) as Hnear.
    set (v := round_half_even (Z.abs a) (2 ^ e) * 2 ^ e) in *.
    replace (Z.sgn a * 1 * round_half_even (Z.abs a) (2 ^ e) * 2 ^ e)
      with (Z.sgn a * v) by (unfold v; ring).
    clearbody v. lia.
Qed.

Lemma round_float_quotient_nonneg (a : Z) :
  0 <= a -> 0 <= round (float_quotient a 1).
Proof.
  intros Ha. unfold float_quotient.
  destruct (a =? 0) eqn:Ez.
  - apply Z.eqb_eq in Ez. subst a. discriminate.
  - apply Z.eqb_neq in Ez.
    assert (Hn : 0 < Z.abs a) by lia.
    change (Z.abs 1) with 1. change (Z.sgn 1) with 1.
    rewrite (round_to_double_1 _ Hn). cbv zeta. simpl mant. simpl expo.
    replace (Z.sgn a) with 1 by lia.
    rewrite !Z.mul_1_l.
    unfold round. simpl expo. simpl mant.
    destruct (0 <=? Z.log2 (Z.abs a) - 52) eqn:He.
    + apply Z.leb_le in He.
      apply Z.mul_nonneg_nonneg; [|apply Z.pow_nonneg; lia].
      apply round_half_even_nonneg; [lia|apply Z.pow_pos_nonneg; lia].
    + apply Z.leb_gt in He.
      apply round_half_even_nonneg; [|apply Z.pow_pos_nonneg; lia].
      apply Z.mul_nonneg_nonneg; [lia|apply Z.pow_nonneg; lia].
Qed.


Lemma usec_nonneg (d : timedelta) :
  0 <= to_microseconds d -> 0 <= usec d.
Proof. intros H. rewrite usec_eq. now apply round_float_quotient_nonneg. Qed.

End PyFacts.

(** ** The run of [dump_callgrind] *)

Module OutputFacts.

Import PyFacts.

Lemma written_nil (w : World) : written [] w = w.
Proof. destruct w; unfold written; simpl. now rewrite app_nil_r. Qed.

Lemma written_written (l1 l2 : list string) (w : World) :
  written l2 (written l1 w) = written (l1 ++ l2) w.
Proof. unfold written; simpl. now rewrite app_assoc. Qed.

Lemma fd_write_run (s : string) (w : World) :
  fd_write s w = (Ok tt, written [s] w).
Proof. reflexivity. Qed.

(** One successor: nothing for a callee with no file, the five lines of
    a call record otherwise. *)
Lemma dump_callgrind_dep_run (data : TargetData) (item : Key * ref)
  (w : World) :
  dump_callgrind_dep data item w =
  (Ok tt, written (flat_map render_call (call_of data (objs w (snd item)))) w).
Proof.
  unfold dump_callgrind_dep, call_of, bind, get_obj, lift.
  destruct (file (objs w (snd item))) as [f|] eqn:Hf.
  - rewrite !fd_write_run, timedelta_truediv_us1, fd_write_run.
    rewrite !written_written. simpl.
    rewrite usec_eq. reflexivity.
  - simpl. now rewrite written_nil.
Qed.

Lemma dump_callgrind_deps_run (data : TargetData) (deps : list (Key * ref))
  (w : World) :
  for_each deps (dump_callgrind_dep data) w =
  (Ok tt,
   written (flat_map render_call
              (flat_map (fun item => call_of data (objs w (snd item))) deps))
           w).
Proof.
  revert w. induction deps as [|dep deps IH]; intros w; simpl.
  - unfold ret. now rewrite written_nil.
  - unfold bind. rewrite dump_callgrind_dep_run, IH, written_written.
    simpl objs. now rewrite flat_map_app.
Qed.

(** One target: nothing for a target with no file, its function record
    and call records otherwise. *)
Lemma dump_callgrind_target_run (item : Key * ref) (w : World) :
  dump_callgrind_target item w =
  (Ok tt, written (render (fn_of (objs w) (objs w (snd item)))) w).
Proof.
  unfold dump_callgrind_target, fn_of, bind at 1, get_obj.
  destruct (file (objs w (snd item))) as [f|] eqn:Hf.
  - unfold bind, lift. rewrite !fd_write_run, timedelta_truediv_us1.
    destruct (recipe (objs w (snd item))) eqn:Hr.
    + rewrite timedelta_truediv_us1. unfold ret.
      rewrite fd_write_run, dump_callgrind_deps_run, !written_written.
      simpl. rewrite !usec_eq, app_nil_r. reflexivity.
    + unfold ret.
      rewrite fd_write_run, dump_callgrind_deps_run, !written_written.
      simpl. rewrite !usec_eq, app_nil_r. reflexivity.
  - simpl. now rewrite written_nil.
Qed.

Lemma dump_callgrind_targets_run (items : list (Key * ref)) (w : World) :
  for_each items dump_callgrind_target w =
  (Ok tt, written (render (profile_of (objs w) items)) w).
Proof.
  revert w. induction items as [|item items IH]; intros w; simpl.
  - unfold ret. now rewrite written_nil.
  - unfold bind. rewrite dump_callgrind_target_run, IH, written_written.
    simpl objs. unfold render. now rewrite flat_map_app.
Qed.

(** The whole export: it completes, and appends the header and the
    rendered profile to the stream. *)
Lemma dump_callgrind_run (w : World) :
  dump_callgrind w =
  (Ok tt,
   written (header (entry (graph w))
            ++ render (profile_of (objs w) (targets_info (graph w)))) w).
Proof.
  unfold dump_callgrind, bind, get_graph.
  rewrite !fd_write_run, dump_callgrind_targets_run, !written_written.
  reflexivity.
Qed.

End OutputFacts.

(** ** Properties of the exported profile *)

Module ProfileFacts.

Import PyFacts OutputFacts.

Lemma profile_of_app (objs : ref -> TargetData) (l1 l2 : list (Key * ref)) :
  profile_of objs (l1 ++ l2) = profile_of objs l1 ++ profile_of objs l2.
Proof. unfold profile_of. apply flat_map_app. Qed.

Lemma render_app (p q : list Fn) : render (p ++ q) = render p ++ render q.
Proof. unfold render. apply flat_map_app. Qed.

Lemma profile_of_cons (objs : ref -> TargetData) (item : Key * ref)
  (items : list (Key * ref)) :
  profile_of objs (item :: items) =
  fn_of objs (objs (snd item)) ++ profile_of objs items.
Proof. reflexivity. Qed.

Lemma render_cons (f : Fn) (p : list Fn) :
  render (f :: p) = render_fn f ++ render p.
Proof. reflexivity. Qed.

(** The output stream after the export. *)
Lemma dump_callgrind_fd (w : World) :
  fd (snd (dump_callgrind w)) =
  fd w ++ header (entry (graph w))
       ++ render (profile_of (objs w) (targets_info (graph w))).
Proof. rewrite dump_callgrind_run. reflexivity. Qed.

(** The records of the profile are those of the targets with a file. *)
Lemma in_profile_of (objs : ref -> TargetData) (items : list (Key * ref))
  (f : Fn) :
  In f (profile_of objs items) ->
  exists item src,
    In item items /\ file (objs (snd item)) = Some src /\
    fn_of objs (objs (snd item)) = [f].
Proof.
  unfold profile_of. intros H. apply in_flat_map in H as [item [Hi Hf]].
  exists item. unfold fn_of in *.
  destruct (file (objs (snd item))) as [src|]; [|contradiction].
  exists src. destruct Hf as [Hf|[]]. rewrite Hf. auto.
Qed.

Lemma profile_of_in (objs : ref -> TargetData) (items : list (Key * ref))
  (item : Key * ref) (f : Fn) :
  In item items -> In f (fn_of objs (objs (snd item))) ->
  In f (profile_of objs items).
Proof.
  intros Hi Hf. unfold profile_of. apply in_flat_map. now exists item.
Qed.

(** The calls of a record are those to the successors with a file. *)
Lemma in_calls (objs : ref -> TargetData) (data : TargetData)
  (deps : list (Key * ref)) (c : Call) :
  In c (flat_map (fun item => call_of data (objs (snd item))) deps) ->
  exists dep src,
    In dep deps /\ file (objs (snd dep)) = Some src /\
    call_of data (objs (snd dep)) = [c].
Proof.
  intros H. apply in_flat_map in H as [dep [Hd Hc]].
  exists dep. unfold call_of in *.
  destruct (file (objs (snd dep))) as [src|]; [|contradiction].
  exists src. destruct Hc as [Hc|[]]. rewrite Hc. auto.
Qed.

(** Forgetting an object with no file changes no record. *)
Lemma calls_forget (objs : ref -> TargetData) (r : ref) (data data' : TargetData)
  (deps : list (Key * ref)) :
  file (objs r) = None ->
  line data' = line data ->
  flat_map (fun item => call_of data' (forget_obj r (objs (snd item))))
           (filter (keeps r) deps) =
  flat_map (fun item => call_of data (objs (snd item))) deps.
Proof.
  intros Hr Hl. induction deps as [|dep deps IH]; simpl; [reflexivity|].
  unfold keeps at 1. destruct (Nat.eqb_spec (snd dep) r) as [E|N]; simpl.
  - rewrite IH. unfold call_of at 2. now rewrite E, Hr.
  - rewrite IH. f_equal. unfold call_of, forget_obj. simpl. now rewrite Hl.
Qed.

Lemma profile_of_forget (objs : ref -> TargetData) (r : ref)
  (items : list (Key * ref)) :
  file (objs r) = None ->
  profile_of (fun x => forget_obj r (objs x)) (filter (keeps r) items) =
  profile_of objs items.
Proof.
  intros Hr. unfold profile_of.
  induction items as [|item items IH]; simpl; [reflexivity|].
  unfold keeps at 1. destruct (Nat.eqb_spec (snd item) r) as [E|N]; simpl.
  - rewrite IH. unfold fn_of at 2. now rewrite E, Hr.
  - rewrite IH. f_equal. unfold fn_of. simpl.
    destruct (file (objs (snd item))); [|reflexivity].
    now rewrite (calls_forget objs r (objs (snd item))).
Qed.


End ProfileFacts.

Import PyFacts OutputFacts ProfileFacts.

(** C9.  For every graph, the export first writes the header: the
    format comment, [version: 1], the creator line and the cmd line
    (creator string and space-joined argv of the graph's Entry), the
    description, [positions: line], the two event declarations and
    [events: Wt Rt]; the target records, everything the loop over the
    targets writes, come after it. *)
Theorem dump_callgrind_header (w : World) :
  fd (snd (dump_callgrind w)) =
  fd w
  ++ [ "# callgrind format" ++ nl;
       "version: 1" ++ nl;
       "creator: " ++ creator (entry (graph w)) ++ nl;
       "cmd: " ++ join " " (argv (entry (graph w))) ++ nl;
       "desc: Node: Targets" ++ nl;
       "positions: line" ++ nl;
       "event: Wt : Wall Time" ++ nl;
       "event: Rt : Recipe Time" ++ nl;
       "events: Wt Rt" ++ nl ++ nl ]%string
  ++ fd (snd (for_each (targets_info (graph w)) dump_callgrind_target
                (mk_world (graph w) (objs w) []))).
Proof.
  rewrite dump_callgrind_fd, dump_callgrind_targets_run. reflexivity.
Qed.

(** C10.  The export reads the graph and only writes to the stream: it
    completes, the graph object (Entry and target mapping) and every
    target object (attributes and successors) are what they were, and
    the stream is extended, never rewritten. *)
Theorem dump_callgrind_read_only (w : World) :
  fst (dump_callgrind w) = Ok tt /\
  graph (snd (dump_callgrind w)) = graph w /\
  objs (snd (dump_callgrind w)) = objs w /\
  exists out, fd (snd (dump_callgrind w)) = fd w ++ out.
Proof.
  rewrite dump_callgrind_run. simpl. repeat split. eauto.
Qed.

(** C6.  A target of the mapping with a defined file gets its
    [ob=]/[fl=]/[fn=] record followed by a cost line with its line number
    and its wall time in microseconds, and with its recipe time in
    microseconds after it exactly when its recipe ran. *)
Theorem dump_callgrind_fn_record (w : World) (item : Key * ref)
  (src : string) :
  In item (targets_info (graph w)) ->
  file (objs w (snd item)) = Some src ->
  let data := objs w (snd item) in
  exists pre post,
    fd (snd (dump_callgrind w)) =
    pre
    ++ [ nl ++ "ob=" ++ directory data ++ nl;
         "fl=" ++ src ++ nl;
         "fn=" ++ target data ++ nl;
         if recipe data
         then str_opt_int (line data) ++ " " ++ str_int (usec (elapsed data))
              ++ " " ++ str_int (usec (elapsed_recipe data)) ++ nl
         else str_opt_int (line data) ++ " " ++ str_int (usec (elapsed data))
              ++ nl ]%string
    ++ post.
Proof.
  intros Hin Hf data. subst data.
  apply in_split in Hin as [l1 [l2 Hs]].
  rewrite dump_callgrind_fd, Hs, profile_of_app, render_app, profile_of_cons.
  unfold fn_of at 1. rewrite Hf.
  rewrite <- app_comm_cons, app_nil_l, render_cons.
  exists (fd w ++ header (entry (graph w)) ++ render (profile_of (objs w) l1)).
  exists (flat_map render_call
            (flat_map (fun dep => call_of (objs w (snd item))
                                          (objs w (snd dep)))
                      (successors (objs w (snd item))))
          ++ render (profile_of (objs w) l2)).
  rewrite <- !app_assoc. do 3 f_equal.
  unfold render_fn. simpl.
  destruct (recipe (objs w (snd item))); simpl;
    repeat (rewrite append_assoc; simpl); reflexivity.
Qed.


Lemma dump_callgrind_fn_record_witness :
  exists pre post,
    fd (snd (dump_callgrind Examples.sample_world)) =
    pre
    ++ [ nl ++ "ob=/src" ++ nl; "fl=Makefile" ++ nl; "fn=main.o" ++ nl;
         "10 1200000 1100000" ++ nl ]%string
    ++ post.
Proof.
  apply (dump_callgrind_fn_record Examples.sample_world
           (Examples.k_main, 1%nat) "Makefile").
  - simpl. auto.
  - reflexivity.
Defined.




(** C4.  A target object with no file is skipped entirely: the loop over
    the targets writes nothing for it, the loop over the successors of
    any target writes nothing for it, and the exported text is the one
    of the graph in which the object occurs neither in the mapping nor
    in any successor dictionary. *)
Theorem dump_callgrind_skips_fileless (w : World) (r : ref) :
  file (objs w r) = None ->
  (forall k, dump_callgrind_target (k, r) w = (Ok tt, w)) /\
  (forall data k, dump_callgrind_dep data (k, r) w = (Ok tt, w)) /\
  dump_callgrind (forget r w) =
  (Ok tt, mk_world (graph (forget r w)) (objs (forget r w))
                   (fd (snd (dump_callgrind w)))).
Proof.
  intros Hr. split; [|split].
  - intros k. rewrite dump_callgrind_target_run. unfold fn_of. simpl snd.
    rewrite Hr. apply f_equal, written_nil.
  - intros data k. rewrite dump_callgrind_dep_run. unfold call_of. simpl snd.
    rewrite Hr. apply f_equal, written_nil.
  - rewrite dump_callgrind_fd, (dump_callgrind_run (forget r w)).
    unfold written. cbn [forget graph objs fd entry targets_info].
    now rewrite profile_of_forget.
Qed.

Lemma dump_callgrind_skips_fileless_witness :
  fd (snd (dump_callgrind (forget 2%nat Examples.sample_world))) =
  fd (snd (dump_callgrind Examples.sample_world)).
Proof.
  pose proof (dump_callgrind_skips_fileless Examples.sample_world 2%nat
                eq_refl) as [_ [_ H]].
  rewrite H. reflexivity.
Defined.

(** C8.  When every successor of a target is a target of the mapping and
    no duration is negative, the exported text is the header followed by
    the rendering of a profile in which every call names a function
    (object, file and name) that has a record of its own, and in which
    every cost is a non-negative integer. *)
Theorem dump_callgrind_export_complete (w : World) :
  closed w = true ->
  nonneg_durations w = true ->
  exists p,
    fd (snd (dump_callgrind w)) = fd w ++ header (entry (graph w)) ++ render p
    /\ no_dangling p /\ costs_nonneg p.
Proof.
  intros Hc Hn.
  exists (profile_of (objs w) (targets_info (graph w))).
  split; [apply dump_callgrind_fd|].
  unfold closed in Hc. unfold nonneg_durations in Hn.
  rewrite forallb_forall in Hc, Hn.
  split.
  - intros f c Hf Hcall.
    apply in_profile_of in Hf as [item [src [Hi [Hsrc Hfn]]]].
    unfold fn_of in Hfn. rewrite Hsrc in Hfn.
    injection Hfn as <-. cbn [calls] in Hcall.
    apply in_calls in Hcall as [dep [dsrc [Hd [Hdsrc Hcl]]]].
    unfold call_of in Hcl. rewrite Hdsrc in Hcl. injection Hcl as <-.
    specialize (Hc item Hi). rewrite forallb_forall in Hc.
    specialize (Hc dep Hd). apply existsb_exists in Hc as [item' [Hi' He]].
    apply Nat.eqb_eq in He.
    assert (Hg : exists g,
               fn_of (objs w) (objs w (snd item')) = [g] /\
               ob g = directory (objs w (snd dep)) /\
               fl g = dsrc /\ fn g = target (objs w (snd dep))).
    { rewrite He. unfold fn_of. rewrite Hdsrc.
      eexists. split; [reflexivity|]. cbn. auto. }
    destruct Hg as [g [Hg Hfields]]. exists g. split.
    + apply (profile_of_in _ _ item' _ Hi'). rewrite Hg. now left.
    + exact Hfields.
  - intros f Hf.
    apply in_profile_of in Hf as [item [src [Hi [Hsrc Hfn]]]].
    unfold fn_of in Hfn. rewrite Hsrc in Hfn. injection Hfn as <-.
    cbn [costs calls]. split.
    + pose proof (Hn item Hi) as Hitem. cbv zeta in Hitem.
      apply andb_true_iff in Hitem as [He Hr]. apply Z.leb_le in He.
      intros v [<-|Hv]; [now apply usec_nonneg|].
      destruct (recipe (objs w (snd item))); [|contradiction].
      simpl in Hr. apply Z.leb_le in Hr.
      destruct Hv as [<-|[]]. now apply usec_nonneg.
    + intros c Hcall.
      apply in_calls in Hcall as [dep [dsrc [Hd [Hdsrc Hcl]]]].
      unfold call_of in Hcl. rewrite Hdsrc in Hcl. injection Hcl as <-.
      cbn [call_cost].
      specialize (Hc item Hi). rewrite forallb_forall in Hc.
      specialize (Hc dep Hd). apply existsb_exists in Hc as [item' [Hi' He]].
      apply Nat.eqb_eq in He. rewrite <- He.
      pose proof (Hn item' Hi') as Hitem. cbv zeta in Hitem.
      apply andb_true_iff in Hitem as [Hel _]. apply Z.leb_le in Hel.
      now apply usec_nonneg.
Qed.

Lemma dump_callgrind_export_complete_witness :
  exists p,
    fd (snd (dump_callgrind Examples.sample_world)) =
    fd Examples.sample_world
    ++ header (entry (graph Examples.sample_world)) ++ render p
    /\ no_dangling p /\ costs_nonneg p.
Proof.
  apply (dump_callgrind_export_complete Examples.sample_world);
    reflexivity.
Defined.



(** ** The command-line callbacks *)

Module MainFacts.

Import Main.

(** Every line of the import block but the fourth is an import
    statement, and so is the fourth once its first word is dropped. *)
Lemma import_block_other_lines :
  map (fun l => import_stmt (tokenize l)) import_block =
  [true; true; true; false; true; true; true; true; true] /\
  import_stmt (tokenize "from pathlib import Path") = true.
Proof. split; reflexivity. Qed.

(** Input paths that are all existing files are returned as they are. *)
Lemma find_json_files_loop_files (fs : FileSystem) (value paths : list string) :
  forallb (isfile fs) value = true ->
  for_each value (find_json_files_body fs) paths = (Ok tt, paths ++ value).
Proof.
  revert paths. induction value as [|p value IH]; intros paths H; simpl.
  - unfold ret. now rewrite app_nil_r.
  - simpl in H. apply andb_true_iff in H as [Hp Hv].
    unfold bind, find_json_files_body. rewrite Hp. unfold list_append.
    rewrite (IH _ Hv), <- app_assoc. reflexivity.
Qed.

(** The loop stops with a [TypeError] at the first path that is not an
    existing file. *)
Lemma find_json_files_loop_raises (fs : FileSystem) (value : list string)
  (p : string) (paths : list string) :
  In p value -> isfile fs p = false ->
  exists paths',
    for_each value (find_json_files_body fs) paths =
    (Raise (TypeError "'NoneType' object is not iterable"), paths').
Proof.
  revert paths. induction value as [|q value IH]; intros paths Hin Hp.
  - contradiction.
  - simpl. unfold bind at 1. unfold find_json_files_body at 1.
    destruct (isfile fs q) eqn:Hq.
    + unfold list_append.
      destruct Hin as [->|Hin]; [congruence|]. now apply IH.
    + unfold bind, list_extend. eauto.
Qed.

End MainFacts.

Import MainFacts.

(** C2.  Line 17 of the module, [import from pathlib import Path], is
    not an import statement: compiling the module stops there with a
    syntax error, and no command is dispatched. *)
Theorem load_module_syntax_error :
  Main.load_module =
  Raise (SyntaxError "import from pathlib import Path") /\
  forall c, Main.invoke c =
            Raise (SyntaxError "import from pathlib import Path").
Proof. split; [reflexivity|intros c; reflexivity]. Qed.

(** C3.  Whatever the specifier, the callback fails on the first one:
    the component list is bound to [target] and then read as [arg], a
    name nothing binds. *)
Theorem target_specifier_name_error (expanduser int_ : Main.pyval -> Res Main.pyval)
  (spec : string) (rest : list string) :
  Main.target_specifier expanduser int_ (spec :: rest) =
  Raise (NameError "arg").
Proof. reflexivity. Qed.

(** C1.  As soon as one of the searched paths is not an existing file
    (the working directory, when no path is given), the callback fails
    with a [TypeError], whether or not trace files lie under it. *)
Theorem find_json_files_type_error (fs : Main.FileSystem)
  (value : list string) (p : string) :
  In p (match value with [] => [Main.getcwd fs] | _ => value end) ->
  Main.isfile fs p = false ->
  Main.find_json_files fs value =
  Raise (TypeError "'NoneType' object is not iterable").
Proof.
  intros Hin Hp. unfold Main.find_json_files.
  destruct (find_json_files_loop_raises fs _ p [] Hin Hp) as [paths' E].
  now rewrite E.
Qed.

Lemma find_json_files_type_error_witness :
  Main.find_json_files Examples.sample_fs ["/w"] =
  Raise (TypeError "'NoneType' object is not iterable").
Proof.
  apply (find_json_files_type_error Examples.sample_fs ["/w"] "/w").
  - simpl. auto.
  - reflexivity.
Defined.

(** ** Further properties of the export *)

Module ExportFacts.

Import Counts.

Lemma profile_of_no_file (objs : ref -> TargetData) (items : list (Key * ref)) :
  forallb (fun item => negb (has_file objs item)) items = true ->
  profile_of objs items = [].
Proof.
  induction items as [|item items IH]; intros H; [reflexivity|].
  simpl in H. apply andb_true_iff in H as [Hi Hr].
  rewrite profile_of_cons, (IH Hr). unfold fn_of.
  unfold has_file in Hi. destruct (file (objs (snd item))); [discriminate|].
  reflexivity.
Qed.

(** The records depend on the objects of the mapping, not on the keys
    they are filed under. *)
Lemma profile_of_refs (objs : ref -> TargetData) (l l' : list (Key * ref)) :
  map snd l = map snd l' -> profile_of objs l = profile_of objs l'.
Proof.
  revert l'. induction l as [|x l IH]; intros [|y l'] H; try discriminate.
  - reflexivity.
  - simpl in H. injection H as Hx Hl.
    rewrite !profile_of_cons, Hx. f_equal. now apply IH.
Qed.

Lemma length_render_calls (cs : list Call) :
  List.length (flat_map render_call cs) = (5 * List.length cs)%nat.
Proof.
  induction cs as [|c cs IH]; [reflexivity|].
  cbn [flat_map]. rewrite length_app, IH. simpl. lia.
Qed.

Lemma length_calls (objs : ref -> TargetData) (data : TargetData)
  (deps : list (Key * ref)) :
  List.length (flat_map (fun i => call_of data (objs (snd i))) deps) =
  List.length (filter (has_file objs) deps).
Proof.
  induction deps as [|dep deps IH]; [reflexivity|].
  cbn [flat_map filter]. rewrite length_app, IH.
  unfold call_of, has_file. destruct (file (objs (snd dep))); reflexivity.
Qed.

Lemma length_render_profile (w : World) (items : list (Key * ref)) :
  List.length (render (profile_of (objs w) items)) =
  (4 * List.length (filter (has_file (objs w)) items)
   + 5 * list_sum (map (fun item => List.length (exported_deps w item))
                       (filter (has_file (objs w)) items)))%nat.
Proof.
  induction items as [|item items IH]; [reflexivity|].
  rewrite profile_of_cons, render_app, length_app, IH.
  cbn [filter].
  destruct (has_file (objs w) item) eqn:Hh; unfold has_file in Hh;
    unfold fn_of; destruct (file (objs w (snd item))) eqn:Hf;
    try discriminate.
  - unfold render. cbn [flat_map]. rewrite app_nil_r.
    unfold render_fn. rewrite length_app, length_render_calls.
    cbn [calls]. rewrite length_calls.
    cbn [List.length map]. unfold exported_deps, list_sum.
    cbn [fold_right]. lia.
  - reflexivity.
Qed.

(** Every string of a rendered profile ends with a newline. *)
Lemma render_call_ends_nl (c : Call) (s : string) :
  In s (render_call c) -> exists t, s = (t ++ nl)%string.
Proof.
  unfold render_call. intros H.
  repeat (destruct H as [<-|H];
          [eexists; repeat rewrite <- append_assoc; reflexivity|]).
  contradiction.
Qed.

Lemma render_fn_ends_nl (f : Fn) (s : string) :
  In s (render_fn f) -> exists t, s = (t ++ nl)%string.
Proof.
  unfold render_fn. intros H. apply in_app_or in H as [H|H].
  - repeat (destruct H as [<-|H];
            [eexists; repeat rewrite <- append_assoc; reflexivity|]).
    contradiction.
  - apply in_flat_map in H as [c [_ Hc]]. eapply render_call_ends_nl; eauto.
Qed.

Lemma header_ends_nl (e : Entry) (s : string) :
  In s (header e) -> exists t, s = (t ++ nl)%string.
Proof.
  unfold header. intros H.
  repeat (destruct H as [<-|H];
          [eexists; repeat rewrite <- append_assoc; reflexivity|]).
  contradiction.
Qed.

End ExportFacts.

Import Counts ExportFacts.

(** X1.  A graph none of whose targets has a defining file, the empty
    graph included, is exported as the nine header lines alone. *)
Theorem dump_callgrind_no_file_header_only (w : World) :
  forallb (fun item => negb (has_file (objs w) item))
          (targets_info (graph w)) = true ->
  fd (snd (dump_callgrind w)) = fd w ++ header (entry (graph w)).
Proof.
  intros H. rewrite dump_callgrind_fd, (profile_of_no_file _ _ H).
  unfold render. cbn [flat_map]. now rewrite app_nil_r.
Qed.

Lemma dump_callgrind_no_file_header_only_witness :
  fd (snd (dump_callgrind
             (mk_world (mk_graph (mk_entry "remake" ["remake"])
                                 [(Examples.k_phony, 2%nat)])
                       Examples.sample_objs [])))
  = header (mk_entry "remake" ["remake"]).
Proof.
  apply (dump_callgrind_no_file_header_only
           (mk_world (mk_graph (mk_entry "remake" ["remake"])
                               [(Examples.k_phony, 2%nat)])
                     Examples.sample_objs [])).
  reflexivity.
Defined.

(** X2.  The records follow the order of the mapping: the export of a
    mapping [l1 ++ l2] is the export of [l1] followed by what the loop
    over the targets writes for [l2]. *)
Theorem dump_callgrind_mapping_order (e : Entry) (store : ref -> TargetData)
  (l1 l2 : list (Key * ref)) (out : list string) :
  fd (snd (dump_callgrind (mk_world (mk_graph e (l1 ++ l2)) store out))) =
  fd (snd (dump_callgrind (mk_world (mk_graph e l1) store out)))
  ++ fd (snd (for_each l2 dump_callgrind_target
                (mk_world (mk_graph e l2) store []))).
Proof.
  rewrite !dump_callgrind_fd, dump_callgrind_targets_run.
  cbn [fd objs graph entry targets_info snd written].
  rewrite profile_of_app, render_app, <- !app_assoc. reflexivity.
Qed.

(** X3.  The export makes nine writes for the header, four for each
    target with a file and five for each of its successors with a
    file. *)
Theorem dump_callgrind_write_count (w : World) :
  List.length (fd (snd (dump_callgrind w))) =
  (List.length (fd w) + 9 + 4 * n_records w + 5 * n_calls w)%nat.
Proof.
  rewrite dump_callgrind_fd, !length_app, length_render_profile.
  unfold n_records, n_calls, exported. simpl. lia.
Qed.

(** X4.  The export does not depend on the keys the target objects are
    filed under in the mapping: two mappings holding the same objects in
    the same order give the same text. *)
Theorem dump_callgrind_keys_irrelevant (w : World) (items : list (Key * ref)) :
  map snd items = map snd (targets_info (graph w)) ->
  fd (snd (dump_callgrind
             (mk_world (mk_graph (entry (graph w)) items) (objs w) (fd w)))) =
  fd (snd (dump_callgrind w)).
Proof.
  intros H. rewrite !dump_callgrind_fd.
  cbn [fd objs graph entry targets_info].
  now rewrite (profile_of_refs _ _ _ H).
Qed.

Lemma dump_callgrind_keys_irrelevant_witness :
  fd (snd (dump_callgrind
             (mk_world (mk_graph (entry (graph Examples.sample_world))
                                 [(Examples.k_phony, 0%nat);
                                  (Examples.k_phony, 1%nat);
                                  (Examples.k_all, 2%nat)])
                       (objs Examples.sample_world)
                       (fd Examples.sample_world)))) =
  fd (snd (dump_callgrind Examples.sample_world)).
Proof.
  apply (dump_callgrind_keys_irrelevant Examples.sample_world
           [(Examples.k_phony, 0%nat); (Examples.k_phony, 1%nat);
            (Examples.k_all, 2%nat)]).
  reflexivity.
Defined.

(** X5.  Exporting twice to the same stream writes the same text twice
    and leaves the graph as it was. *)
Theorem dump_callgrind_twice (w : World) :
  exists out,
    fd (snd (dump_callgrind w)) = fd w ++ out /\
    (dump_callgrind ;; dump_callgrind) w =
    (Ok tt, mk_world (graph w) (objs w) (fd w ++ out ++ out)).
Proof.
  exists (header (entry (graph w))
          ++ render (profile_of (objs w) (targets_info (graph w)))).
  split; [apply dump_callgrind_fd|].
  unfold bind. rewrite dump_callgrind_run, dump_callgrind_run.
  rewrite written_written. reflexivity.
Qed.

(** X6.  Every string the export writes ends with a newline: the file
    is made of complete lines. *)
Theorem dump_callgrind_complete_lines (w : World) (s : string) :
  In s (fd (snd (dump_callgrind w))) ->
  In s (fd w) \/ exists t, s = (t ++ nl)%string.
Proof.
  rewrite dump_callgrind_fd. intros H.
  apply in_app_or in H as [H|H]; [now left|right].
  apply in_app_or in H as [H|H].
  - eapply header_ends_nl; eauto.
  - unfold render in H. apply in_flat_map in H as [f [_ Hf]].
    eapply render_fn_ends_nl; eauto.
Qed.

Lemma dump_callgrind_complete_lines_witness :
  In ("fn=main.o" ++ nl)%string (fd Examples.sample_world) \/
  exists t, ("fn=main.o" ++ nl)%string = (t ++ nl)%string.
Proof.
  apply (dump_callgrind_complete_lines Examples.sample_world).
  vm_compute. intuition.
Defined.

(** ** Further properties of the conversion to microseconds *)

Module NumFacts.

Lemma round_half_even_mono (n1 n2 d : Z) :
  0 < d -> n1 <= n2 -> round_half_even n1 d <= round_half_even n2 d.
Proof.
  intros Hd Hn. unfold round_half_even.
  pose proof (Z.div_mod n1 d ltac:(lia)) as E1.
  pose proof (Z.div_mod n2 d ltac:(lia)) as E2.
  pose proof (Z.mod_pos_bound n1 d Hd) as B1.
  pose proof (Z.mod_pos_bound n2 d Hd) as B2.
  pose proof (Z.div_le_mono n1 n2 d Hd Hn) as Hq.
  set (q1 := n1 / d) in *. set (r1 := n1 mod d) in *.
  set (q2 := n2 / d) in *. set (r2 := n2 mod d) in *.
  clearbody q1 r1 q2 r2.
  destruct (Z.eq_dec q1 q2) as [->|Nq].
  - assert (r1 <= r2) by lia.
    destruct (Z.compare_spec (2 * r1) d), (Z.compare_spec (2 * r2) d),
      (Z.even q2); lia.
  - destruct (Z.compare_spec (2 * r1) d), (Z.compare_spec (2 * r2) d),
      (Z.even q1), (Z.even q2); lia.
Qed.

(** The printed count of a positive number of microseconds. *)
Lemma round_float_quotient_pos (n : Z) :
  0 < n ->
  round (float_quotient n 1) =
  if 0 <=? Z.log2 n - 52
  then round_half_even n (2 ^ (Z.log2 n - 52)) * 2 ^ (Z.log2 n - 52)
  else n.
Proof.
  intros Hn. unfold float_quotient.
  replace (n =? 0) with false by (symmetry; apply Z.eqb_neq; lia).
  change (Z.abs 1) with 1. change (Z.sgn 1) with 1.
  replace (Z.abs n) with n by lia. replace (Z.sgn n) with 1 by lia.
  rewrite (PyFacts.round_to_double_1 _ Hn). cbv zeta.
  unfold round. cbn [mant expo].
  destruct (0 <=? Z.log2 n - 52) eqn:He.
  - now rewrite !Z.mul_1_l.
  - apply Z.leb_gt in He. rewrite !Z.mul_1_l.
    apply PyFacts.round_half_even_mul. apply Z.pow_pos_nonneg; lia.
Qed.

Lemma round_float_quotient_opp (n : Z) :
  0 < n -> round (float_quotient (- n) 1) = - round (float_quotient n 1).
Proof.
  intros Hn. rewrite (round_float_quotient_pos n Hn).
  unfold float_quotient.
  replace (- n =? 0) with false by (symmetry; apply Z.eqb_neq; lia).
  change (Z.abs 1) with 1. change (Z.sgn 1) with 1.
  replace (Z.abs (- n)) with n by lia. replace (Z.sgn (- n)) with (-1) by lia.
  rewrite (PyFacts.round_to_double_1 _ Hn). cbv zeta.
  unfold round. cbn [mant expo].
  destruct (0 <=? Z.log2 n - 52) eqn:He.
  - ring.
  - apply Z.leb_gt in He.
    replace (-1 * 1 * (n * 2 ^ (- (Z.log2 n - 52))))
      with (- n * 2 ^ (- (Z.log2 n - 52))) by ring.
    apply PyFacts.round_half_even_mul. apply Z.pow_pos_nonneg; lia.
Qed.

(** The printed count stays within the binade of the exact one. *)
Lemma round_float_quotient_bounds (n : Z) :
  0 < n ->
  2 ^ Z.log2 n <= round (float_quotient n 1) <= 2 ^ (Z.log2 n + 1).
Proof.
  intros Hn. rewrite (round_float_quotient_pos n Hn).
  pose proof (Z.log2_spec n Hn) as [Hlo Hhi].
  replace (Z.succ (Z.log2 n)) with (Z.log2 n + 1) in Hhi by lia.
  destruct (0 <=? Z.log2 n - 52) eqn:He; [|lia].
  apply Z.leb_le in He.
  set (e := Z.log2 n - 52) in *.
  assert (Hd : 0 < 2 ^ e) by (apply Z.pow_pos_nonneg; lia).
  assert (Ek : 2 ^ Z.log2 n = 2 ^ 52 * 2 ^ e).
  { rewrite <- Z.pow_add_r by lia. f_equal. unfold e. lia. }
  assert (Ek1 : 2 ^ (Z.log2 n + 1) = 2 ^ 53 * 2 ^ e).
  { rewrite <- Z.pow_add_r by lia. f_equal. unfold e. lia. }
  rewrite Ek, Ek1.
  pose proof (round_half_even_mono (2 ^ 52 * 2 ^ e) n (2 ^ e) Hd
                ltac:(lia)) as Hl.
  pose proof (round_half_even_mono n (2 ^ 53 * 2 ^ e) (2 ^ e) Hd
                ltac:(lia)) as Hu.
  rewrite PyFacts.round_half_even_mul in Hl, Hu by exact Hd.
  split; apply Z.mul_le_mono_nonneg_r; lia.
Qed.

Lemma round_float_quotient_mono_pos (a b : Z) :
  0 < a -> a <= b ->
  round (float_quotient a 1) <= round (float_quotient b 1).
Proof.
  intros Ha Hab. assert (Hb : 0 < b) by lia.
  pose proof (Z.log2_le_mono a b Hab) as Hk.
  destruct (Z.eq_dec (Z.log2 a) (Z.log2 b)) as [Ek|Nk].
  - rewrite (round_float_quotient_pos a Ha), (round_float_quotient_pos b Hb).
    rewrite Ek. destruct (0 <=? Z.log2 b - 52) eqn:He; [|exact Hab].
    apply Z.leb_le in He.
    assert (Hd : 0 < 2 ^ (Z.log2 b - 52)) by (apply Z.pow_pos_nonneg; lia).
    apply Z.mul_le_mono_nonneg_r; [lia|].
    now apply round_half_even_mono.
  - pose proof (round_float_quotient_bounds a Ha) as [_ Hu].
    pose proof (round_float_quotient_bounds b Hb) as [Hl _].
    pose proof (Z.log2_nonneg a) as Hk0.
    assert (2 ^ (Z.log2 a + 1) <= 2 ^ Z.log2 b)
      by (apply Z.pow_le_mono_r; lia).
    lia.
Qed.

Lemma round_float_quotient_mono (a b : Z) :
  a <= b -> round (float_quotient a 1) <= round (float_quotient b 1).
Proof.
  intros Hab.
  destruct (Z.lt_trichotomy a 0) as [Ha|[->|Ha]].
  - replace a with (- - a) by lia.
    rewrite (round_float_quotient_opp (- a)) by lia.
    destruct (Z.lt_trichotomy b 0) as [Hb|[->|Hb]].
    + replace b with (- - b) at 1 by lia.
      rewrite (round_float_quotient_opp (- b)) by lia.
      pose proof (round_float_quotient_mono_pos (- b) (- a)
                    ltac:(lia) ltac:(lia)).
      lia.
    + pose proof (PyFacts.round_float_quotient_nonneg (- a) ltac:(lia)).
      change (round (float_quotient 0 1)) with 0. lia.
    + pose proof (PyFacts.round_float_quotient_nonneg (- a) ltac:(lia)).
      pose proof (PyFacts.round_float_quotient_nonneg b ltac:(lia)).
      lia.
  - now apply PyFacts.round_float_quotient_nonneg.
  - now apply round_float_quotient_mono_pos.
Qed.

End NumFacts.

(** X7.  The conversion keeps the order of durations: a longer duration
    is never printed as a smaller number of microseconds. *)
Theorem usec_monotone (d1 d2 : timedelta) :
  to_microseconds d1 <= to_microseconds d2 -> usec d1 <= usec d2.
Proof.
  intros H. rewrite !usec_eq. now apply NumFacts.round_float_quotient_mono.
Qed.

Lemma usec_monotone_witness :
  usec (timedelta_us 9007199254740993) <= usec (timedelta_us 9007199254740995).
Proof.
  apply (usec_monotone (timedelta_us 9007199254740993)
                       (timedelta_us 9007199254740995)).
  vm_compute. discriminate.
Defined.

(** X8.  The printed number of microseconds is off from the exact one
    by at most half a unit in the last of 53 binary places; below [2^52]
    microseconds that bound is zero. *)
Theorem usec_half_ulp (d : timedelta) :
  2 * Z.abs (usec d - to_microseconds d)
  <= 2 ^ (Z.log2 (Z.abs (to_microseconds d)) - 52).
Proof. rewrite usec_eq. apply round_float_quotient_near. Qed.

(** ** Further properties of the command-line callbacks *)

Module CallbackFacts.

Import Main.

Lemma forallb_false_witness {A} (f : A -> bool) (l : list A) :
  forallb f l = false -> exists x, In x l /\ f x = false.
Proof.
  induction l as [|a l IH]; simpl; [discriminate|].
  destruct (f a) eqn:Fa; simpl; intros H.
  - destruct (IH H) as [x [Hx Hf]]. exists x. auto.
  - exists a. auto.
Qed.

Lemma searched_not_nil (fs : FileSystem) (value : list string) :
  searched fs value <> [].
Proof. destruct value; discriminate. Qed.

(** The two outcomes of the callback. *)
Lemma find_json_files_cases (fs : FileSystem) (value : list string) :
  find_json_files fs value =
  if forallb (isfile fs) (searched fs value)
  then Ok (nodup string_dec (searched fs value))
  else Raise (TypeError "'NoneType' object is not iterable").
Proof.
  unfold find_json_files. fold (searched fs value).
  destruct (forallb (isfile fs) (searched fs value)) eqn:H.
  - rewrite (find_json_files_loop_files fs _ [] H). simpl app.
    pose proof (searched_not_nil fs value) as N.
    destruct (searched fs value); [contradiction|reflexivity].
  - apply forallb_false_witness in H as [p [Hin Hp]].
    destruct (find_json_files_loop_raises fs _ p [] Hin Hp) as [paths' E].
    now rewrite E.
Qed.

Lemma join_cons (sep x : string) (l : list string) :
  l <> [] -> join sep (x :: l) = (x ++ sep ++ join sep l)%string.
Proof. destruct l; [contradiction|reflexivity]. Qed.

Lemma split_from_not_nil (sep : ascii) (acc s : string) :
  split_from sep acc s <> [].
Proof.
  revert acc. induction s as [|c s IH]; intros acc; simpl.
  - discriminate.
  - destruct (Ascii.eqb c sep); [discriminate|apply IH].
Qed.

Lemma append_nil_r (a : string) : (a ++ "")%string = a.
Proof. induction a as [|x a IH]; simpl; [reflexivity|now rewrite IH]. Qed.

Lemma split_from_join (sep : ascii) (acc s : string) :
  join (String sep "") (split_from sep acc s) = (acc ++ s)%string.
Proof.
  revert acc. induction s as [|c s IH]; intros acc; simpl split_from.
  - now rewrite append_nil_r.
  - destruct (Ascii.eqb_spec c sep) as [->|N].
    + rewrite join_cons by apply split_from_not_nil.
      rewrite IH. reflexivity.
    + rewrite IH, append_assoc. reflexivity.
Qed.

Lemma count_char_app (c : ascii) (a b : string) :
  Counts.count_char c (a ++ b) =
  (Counts.count_char c a + Counts.count_char c b)%nat.
Proof.
  induction a as [|x a IH]; simpl; [reflexivity|].
  destruct (Ascii.eqb x c); simpl; now rewrite IH.
Qed.

Lemma split_from_fields (sep : ascii) (acc s : string) :
  Counts.count_char sep acc = O ->
  List.length (split_from sep acc s) = S (Counts.count_char sep s) /\
  forall f, In f (split_from sep acc s) -> Counts.count_char sep f = O.
Proof.
  revert acc. induction s as [|c s IH]; intros acc Hacc; simpl.
  - split; [reflexivity|]. intros f [<-|[]]. exact Hacc.
  - destruct (Ascii.eqb_spec c sep) as [->|N].
    + destruct (IH "" eq_refl) as [Hl Hf]. split.
      * simpl. now rewrite Hl.
      * intros f [<-|H]; [exact Hacc|now apply Hf].
    + apply IH. rewrite count_char_app, Hacc. simpl.
      destruct (Ascii.eqb_spec c sep); [contradiction|reflexivity].
Qed.

(** The run of [setup_logging] for a count of at least [-3]: the
    handlers are replaced by the new one and the level is set. *)
Lemma setup_logging_run (new_id : nat) (verbose : Z) (lg : logger) (l : Z) :
  (verbose = 0 \/ verbose = -3) /\ l = WARNING \/
  (verbose = 1 \/ verbose = -2) /\ l = INFO \/
  (2 <= verbose \/ verbose = -1) /\ l = DEBUG ->
  setup_logging new_id verbose lg =
  (Ok tt,
   {| log_handlers := [ {| hid := new_id;
                           formatter := Some "%(levelname)s: %(message)s" |} ];
      log_level := l |}).
Proof.
  intros H. unfold setup_logging, bind, handlers_clear, addHandler.
  cbn [log_handlers existsb log_level app hid List.length].
  change (Z.of_nat 3 - 1) with 2.
  destruct H as [[[->| ->] ->]|[[[->| ->] ->]|[[Hv| ->] ->]]];
    try reflexivity.
  rewrite Z.min_r by lia. reflexivity.
Qed.

End CallbackFacts.

Import CallbackFacts.

(** X10.  When every searched path (the given ones, or the working
    directory when none is given) is an existing file, the callback
    returns them: the result has no duplicates and exactly the members
    of the input. *)
Theorem find_json_files_existing_files (fs : Main.FileSystem)
  (value : list string) :
  forallb (Main.isfile fs) (searched fs value) = true ->
  exists paths,
    Main.find_json_files fs value = Ok paths /\
    NoDup paths /\
    forall p, In p paths <-> In p (searched fs value).
Proof.
  intros H. rewrite find_json_files_cases, H.
  eexists. split; [reflexivity|]. split.
  - apply NoDup_nodup.
  - intros p. apply nodup_In.
Qed.

Lemma find_json_files_existing_files_witness :
  exists paths,
    Main.find_json_files Examples.sample_fs
      ["/w/build.1.json"; "/w/build.1.json"] = Ok paths /\
    NoDup paths /\
    forall p, In p paths <->
              In p (searched Examples.sample_fs
                      ["/w/build.1.json"; "/w/build.1.json"]).
Proof.
  apply (find_json_files_existing_files Examples.sample_fs
           ["/w/build.1.json"; "/w/build.1.json"]).
  reflexivity.
Defined.

(** X11.  Whatever the callback returns is a non-empty list of existing
    files taken from the searched paths: it never returns an empty
    result, and never a file it found by searching a directory. *)
Theorem find_json_files_result (fs : Main.FileSystem) (value paths : list string) :
  Main.find_json_files fs value = Ok paths ->
  paths <> [] /\
  forall p, In p paths ->
            Main.isfile fs p = true /\ In p (searched fs value).
Proof.
  rewrite find_json_files_cases.
  destruct (forallb (Main.isfile fs) (searched fs value)) eqn:H;
    [|discriminate].
  intros E. injection E as <-.
  rewrite forallb_forall in H. split.
  - pose proof (searched_not_nil fs value) as N.
    destruct (searched fs value) as [|x l] eqn:Es; [contradiction|].
    intros Hn. assert (Hx : In x (nodup string_dec (x :: l)))
      by (apply nodup_In; now left).
    rewrite Hn in Hx. contradiction.
  - intros p Hp. apply nodup_In in Hp. auto.
Qed.

Lemma find_json_files_result_witness :
  ["/w/build.1.json"] <> [] /\
  forall p, In p ["/w/build.1.json"] ->
            Main.isfile Examples.sample_fs p = true /\
            In p (searched Examples.sample_fs ["/w/build.1.json"]).
Proof.
  apply (find_json_files_result Examples.sample_fs ["/w/build.1.json"]).
  reflexivity.
Defined.



(** X13.  Splitting a specifier at the colons loses nothing: joining the
    fields with colons gives the specifier back. *)
Theorem split_join (sep : ascii) (s : string) :
  join (String sep "") (Main.split sep s) = s.
Proof. unfold Main.split. now rewrite split_from_join. Qed.

(** X14.  A specifier with [n] colons splits into [n + 1] fields, none
    of which contains a colon. *)
Theorem split_fields (sep : ascii) (s : string) :
  List.length (Main.split sep s) = S (count_char sep s) /\
  forall f, In f (Main.split sep s) -> count_char sep f = O.
Proof. unfold Main.split. now apply split_from_fields. Qed.

(** X15.  For every non-negative verbosity count the callback succeeds:
    whatever handlers the root logger had, it is left with the new
    stream handler alone, and its level is WARNING for 0, INFO for 1
    and DEBUG for every count from 2 on. *)
Theorem setup_logging_levels (new_id : nat) (verbose : Z) (lg : Main.logger) :
  0 <= verbose ->
  Main.setup_logging new_id verbose lg =
  (Ok tt,
   {| Main.log_handlers :=
        [ {| Main.hid := new_id;
             Main.formatter := Some "%(levelname)s: %(message)s" |} ];
      Main.log_level := if verbose =? 0 then Main.WARNING
                        else if verbose =? 1 then Main.INFO
                        else Main.DEBUG |}).
Proof.
  intros Hv. apply setup_logging_run.
  destruct (Z.eqb_spec verbose 0) as [->|N0]; [auto|].
  destruct (Z.eqb_spec verbose 1) as [->|N1]; [auto|].
  right. right. split; [left; lia|reflexivity].
Qed.

Lemma setup_logging_levels_witness :
  Main.setup_logging 7%nat 5
    {| Main.log_handlers := [ {| Main.hid := 7%nat; Main.formatter := None |} ];
       Main.log_level := 0 |} =
  (Ok tt,
   {| Main.log_handlers :=
        [ {| Main.hid := 7%nat;
             Main.formatter := Some "%(levelname)s: %(message)s" |} ];
      Main.log_level := Main.DEBUG |}).
Proof.
  apply (setup_logging_levels 7%nat 5). lia.
Defined.

(** X16.  A count below [-3] indexes outside the list of levels: the
    callback raises [IndexError] after it has replaced the handlers, and
    the level stays what it was. *)
Theorem setup_logging_out_of_range (new_id : nat) (verbose : Z)
  (lg : Main.logger) :
  verbose < -3 ->
  Main.setup_logging new_id verbose lg =
  (Raise (IndexError "list index out of range"),
   {| Main.log_handlers :=
        [ {| Main.hid := new_id;
             Main.formatter := Some "%(levelname)s: %(message)s" |} ];
      Main.log_level := Main.log_level lg |}).
Proof.
  intros Hv.
  unfold Main.setup_logging, bind, Main.handlers_clear, Main.addHandler.
  cbn [Main.log_handlers existsb Main.log_level app Main.hid List.length].
  change (Z.of_nat 3 - 1) with 2. rewrite Z.min_l by lia.
  unfold Main.list_index. cbn [List.length]. change (Z.of_nat 3) with 3.
  replace (verbose <? 0) with true by (symmetry; apply Z.ltb_lt; lia).
  replace (0 <=? verbose + 3) with false by (symmetry; apply Z.leb_gt; lia).
  reflexivity.
Qed.

Lemma setup_logging_out_of_range_witness :
  Main.setup_logging 1%nat (-4)
    {| Main.log_handlers := []; Main.log_level := Main.INFO |} =
  (Raise (IndexError "list index out of range"),
   {| Main.log_handlers :=
        [ {| Main.hid := 1%nat;
             Main.formatter := Some "%(levelname)s: %(message)s" |} ];
      Main.log_level := Main.INFO |}).
Proof.
  apply (setup_logging_out_of_range 1%nat (-4)). lia.
Defined.

(** ** The time values of the export *)

Module TimeValueFacts.




End TimeValueFacts.


